(** * Responsible AI App Backend: the conversation endpoints of [main.py]

    A shallow embedding of the three handlers [create_conversation],
    [list_conversations] and [chat], of the Python [str] operations they
    use, and of the document store they call.

    - A Python [str] is a [string]; each character stands for one code
      point below 256, on which [isspace] and [lower] are Python's.
    - A [dict] with [str] keys is a [gmap string _].
    - A handler is a tree of store calls ([handler]): the store is an
      external collaborator, so a call node carries the arguments that the
      handler passes and a continuation on what the store answers, either a
      value or an exception.  [run] executes such a tree against a store
      client, threading the state of the database. *)

From Stdlib Require Import ZArith Ascii String.
From stdpp Require Import base option list gmap strings pretty.

(** ** Python [str] operations *)

Module Py.

(** [c.isspace()] on a code point below 256: the ASCII white space
    characters 9 to 13 and 32, the separators 28 to 31, NEL (133) and the
    no-break space (160). *)
Definition isspace (c : ascii) : bool :=
  let n := nat_of_ascii c in
  ((9 <=? n) && (n <=? 13)) || ((28 <=? n) && (n <=? 32))
  || (n =? 133) || (n =? 160).

(** [c.lower()] on a code point below 256: the letters A to Z and the
    Latin-1 capitals 192 to 222, the multiplication sign 215 apart, move
    up by 32. *)
Definition lower_char (c : ascii) : ascii :=
  let n := nat_of_ascii c in
  if ((65 <=? n) && (n <=? 90))
     || ((192 <=? n) && (n <=? 222) && negb (n =? 215))
  then ascii_of_nat (n + 32) else c.

(** [s.lower()] *)
Fixpoint lower (s : string) : string :=
  match s with
  | EmptyString => EmptyString
  | String c s' => String (lower_char c) (lower s')
  end.

(** [s.lstrip()] *)
Fixpoint lstrip (s : string) : string :=
  match s with
  | EmptyString => EmptyString
  | String c s' => if isspace c then lstrip s' else s
  end.

(** [s.rstrip()] *)
Fixpoint rstrip (s : string) : string :=
  match s with
  | EmptyString => EmptyString
  | String c s' =>
      match rstrip s' with
      | EmptyString => if isspace c then EmptyString else String c EmptyString
      | r => String c r
      end
  end.

(** [s.strip()] *)
Definition strip (s : string) : string := rstrip (lstrip s).

(** [s.startswith(p)] *)
Fixpoint startswith (p s : string) : bool :=
  match p, s with
  | EmptyString, _ => true
  | String _ _, EmptyString => false
  | String a p', String b s' => if decide (a = b) then startswith p' s' else false
  end.

(** [w in s]: [w] occurs in [s] at some position. *)
Fixpoint contains (w s : string) : bool :=
  startswith w s ||
  match s with
  | EmptyString => false
  | String _ s' => contains w s'
  end.

(** [s[:n]] for a literal [n >= 0] *)
Fixpoint slice_to (n : nat) (s : string) : string :=
  match n, s with
  | S n', String c s' => String c (slice_to n' s')
  | _, _ => EmptyString
  end.

(** Truth value of a [str]: only the empty string is false. *)
Definition truthy (s : string) : bool :=
  match s with
  | EmptyString => false
  | String _ _ => true
  end.

(** [s or d] *)
Definition or_else (s d : string) : string := if truthy s then s else d.

(** [w] is a substring of [s]; [contains] decides it ([contains_spec]). *)
Definition substring_of (w s : string) : Prop :=
  exists p q : string, s = p +:+ w +:+ q.

(** Every character of [s] is white space. *)
Fixpoint all_space (s : string) : bool :=
  match s with
  | EmptyString => true
  | String c s' => isspace c && all_space s'
  end.

End Py.

(** ** Data model *)

(** Modelled from the spec: the pydantic models [ChatMessage] and
    [Conversation] of [schemas.py], which is not among the sources.
    A message has a role, user or assistant, a text and three optional
    settings; a conversation has a title and an ordered list of messages. *)
Inductive Role : Type := user | assistant.

Module ChatMessage.
Record t : Type := Build {
  role : Role;
  content : string;
  model : option string;
  tone : option string;
  language : option string
}.
End ChatMessage.

Module Conversation.
Record t : Type := Build {
  title : string;
  messages : list ChatMessage.t
}.
End Conversation.

(** The request and response bodies of [/api/chat]. *)
Module ChatRequest.
Record t : Type := Build {
  conversation_id : option string;
  message : string;
  model : option string;
  tone : option string;
  language : option string
}.
End ChatRequest.

Module ChatResponse.
Record t : Type := Build {
  reply : string;
  conversation_id : string
}.
End ChatResponse.

(** [HTTPException(status_code, detail)] *)
Record HTTPException : Type := {
  status_code : Z;
  detail : string
}.

(** [str(x)] on the values that the store keeps in its records (ObjectId,
    text, dates, ...). *)
Class Str (raw : Type) : Type := str : raw -> string.

(** A value in a record: what the store put there, or the [str] or [None]
    that [list_conversations] and [create_conversation] write. *)
Inductive value (raw : Type) : Type :=
| Raw (r : raw)
| PyStr (s : string)
| PyNone.
Arguments Raw {raw} r.
Arguments PyStr {raw} s.
Arguments PyNone {raw}.

(** A record: a [dict] with [str] keys. *)
Abbreviation document raw := (gmap string (value raw)).

(** What a call of the store gives: a value, or an exception [e] (an
    instance of [Exception], which the handlers catch), kept as [str(e)],
    the one thing the handlers read of it. *)
Inductive outcome (A : Type) : Type :=
| Returns (a : A)
| Raises (e : string).
Arguments Returns {A} a.
Arguments Raises {A} e.

(** A handler: it returns, raises an [HTTPException], or calls the store
    ([create_document(collection_name, data)],
    [get_documents(collection_name, filter_dict, limit)]) and goes on with
    the outcome of the call. *)
Inductive handler (raw A : Type) : Type :=
| Return (a : A)
| Raise (e : HTTPException)
| CreateDocument (collection_name : string) (data : Conversation.t)
    (k : outcome string -> handler raw A)
| GetDocuments (collection_name : string) (filter_dict : document raw)
    (limit : Z) (k : outcome (list (document raw)) -> handler raw A).
Arguments Return {raw A} a.
Arguments Raise {raw A} e.
Arguments CreateDocument {raw A} collection_name data k.
Arguments GetDocuments {raw A} collection_name filter_dict limit k.

(** ** The handlers *)

Section Handlers.
Context {raw : Type} `{!Str raw}.

(** [POST /api/conversations] *)
Definition create_conversation (payload : Conversation.t)
  : handler raw (document raw) :=
  CreateDocument "conversation" payload (fun r =>
    match r with
    | Returns conv_id => Return {[ "id" := PyStr conv_id ]}
    | Raises e => Raise {| status_code := 500; detail := e |}
    end).

(** The body of the loop of [list_conversations]:
    [d["id"] = str(d.pop("_id")) if "_id" in d else None]. *)
Definition rename_id (d : document raw) : document raw :=
  match d !! "_id" with
  | Some v =>
      let s := match v with
               | Raw r => str r
               | PyStr s => s
               | PyNone => "None"
               end in
      <["id" := PyStr s]> (delete "_id" d)
  | None => <["id" := PyNone]> d
  end.

(** [GET /api/conversations].  The records of one answer of the store are
    dicts of their own, so the loop that updates each of them in place
    and returns the list is a map over the list. *)
Definition list_conversations (limit : Z)
  : handler raw (list (document raw)) :=
  GetDocuments "conversation" ∅ limit (fun r =>
    match r with
    | Returns docs => Return (rename_id <$> docs)
    | Raises e => Raise {| status_code := 500; detail := e |}
    end).

(** The locals of [chat], in the order of the source. *)
Definition user_text (req : ChatRequest.t) : string :=
  Py.strip (Py.or_else (ChatRequest.message req) "").

Definition blocked : list string := ["illegal"; "violence"; "self-harm"].

Definition refusal : string :=
  "I can't assist with that. If you're in danger or feeling unsafe, please seek professional help or contact local authorities.".

Definition safe_reply (user_text : string) : string :=
  if existsb (fun word => Py.contains word (Py.lower user_text)) blocked
  then refusal
  else "You said: " +:+ user_text +:+ ". This is a demo assistant.".

Definition conv (req : ChatRequest.t) : Conversation.t :=
  let user_text := user_text req in
  let message :=
    ChatMessage.Build user user_text (ChatRequest.model req)
      (ChatRequest.tone req) (ChatRequest.language req) in
  let assistant_msg :=
    ChatMessage.Build assistant (safe_reply user_text) None None None in
  Conversation.Build (Py.or_else (Py.slice_to 40 user_text) "New Chat")
    [message; assistant_msg].

(** [POST /api/chat] *)
Definition chat (req : ChatRequest.t) : handler raw ChatResponse.t :=
  let user_text := user_text req in
  if negb (Py.truthy user_text)
  then Raise {| status_code := 400; detail := "Message cannot be empty" |}
  else
    let safe_reply := safe_reply user_text in
    CreateDocument "conversation" (conv req) (fun r =>
      let conv_id := match r with
                     | Returns conv_id => conv_id
                     | Raises _ => "ephemeral"
                     end in
      Return (ChatResponse.Build safe_reply conv_id)).
End Handlers.

(** ** Running a handler against a store *)

(** What the caller of an endpoint receives: the body of a 200 response,
    or the [HTTPException] that the handler raised. *)
Inductive response (A : Type) : Type :=
| Ok (body : A)
| Error (e : HTTPException).
Arguments Ok {A} body.
Arguments Error {A} e.

(** The two functions that the handlers import from [database.py], which is
    not among the sources: they are a parameter of [run].  A call may
    answer with a value or raise, and may change the database [db]. *)
Record StoreClient (raw db : Type) : Type := {
  create_document : string -> Conversation.t -> db -> outcome string * db;
  get_documents :
    string -> document raw -> Z -> db -> outcome (list (document raw)) * db
}.
Arguments create_document {raw db} _ _ _ _.
Arguments get_documents {raw db} _ _ _ _.

Fixpoint run {raw db A : Type} (store : StoreClient raw db)
    (h : handler raw A) (s : db) : response A * db :=
  match h with
  | Return a => (Ok a, s)
  | Raise e => (Error e, s)
  | CreateDocument collection_name data k =>
      let '(r, s') := create_document store collection_name data s in
      run store (k r) s'
  | GetDocuments collection_name filter_dict limit k =>
      let '(r, s') := get_documents store collection_name filter_dict limit s in
      run store (k r) s'
  end.

(** The conversations that a handler hands to [create_document], whatever
    the store answers to the first call. *)
Definition persists {raw A : Type} (h : handler raw A)
    (c : Conversation.t) : Prop :=
  exists k, h = CreateDocument "conversation" c k.

(** ** Two stores to run the handlers against *)

(** The values of a test store: identifiers and text. *)
Inductive bson : Type :=
| ObjectId (hex : string)
| Text (s : string).

#[export] Instance bson_str : Str bson :=
  fun b => match b with ObjectId hex => hex | Text s => s end.

(** A store that is down: every call raises. *)
Definition unavailable : StoreClient bson unit := {|
  create_document _ _ s := (Raises "Database not available", s);
  get_documents _ _ _ s := (Raises "Database not available", s)
|}.

(** An in-memory store: the conversations in the order of insertion, each
    under the identifier it was given.  A listing shows the identifier and
    the title of the first [limit] of them. *)
Definition in_memory : StoreClient bson (list (string * Conversation.t)) := {|
  create_document _ data s :=
    let conv_id := "c" +:+ pretty (length s) in
    (Returns conv_id, s ++ [(conv_id, data)]);
  get_documents _ _ limit s :=
    (Returns
       ((fun '(conv_id, c) =>
           {[ "_id" := Raw (ObjectId conv_id);
              "title" := Raw (Text (Conversation.title c)) ]})
        <$> take (Z.to_nat limit) s), s)
|}.

(** A request with a message and nothing else, and two records of a store:
    one under an identifier, one without. *)
Definition request (message : string) : ChatRequest.t :=
  ChatRequest.Build None message None None None.

Definition stored_record : document bson :=
  {[ "_id" := Raw (ObjectId "65f0c0ffee"); "title" := Raw (Text "hello") ]}.

Definition bare_record : document bson :=
  {[ "title" := Raw (Text "draft") ]}.

(** A store that answers every listing with these two records. *)
Definition two_records : StoreClient bson unit := {|
  create_document _ _ s := (Returns "65f0c0ffef", s);
  get_documents _ _ _ s := (Returns [stored_record; bare_record], s)
|}.

(** ** The calls that a handler makes *)

(** A call of the store, with its arguments. *)
Inductive call (raw : Type) : Type :=
| CreateCall (collection_name : string) (data : Conversation.t)
| GetCall (collection_name : string) (filter_dict : document raw) (limit : Z).
Arguments CreateCall {raw} collection_name data.
Arguments GetCall {raw} collection_name filter_dict limit.

(** The calls made, in order, when the handler runs against [store] from
    the database [s]. *)
Fixpoint store_calls {raw db A : Type} (store : StoreClient raw db)
    (h : handler raw A) (s : db) : list (call raw) :=
  match h with
  | Return _ | Raise _ => []
  | CreateDocument collection_name data k =>
      let '(r, s') := create_document store collection_name data s in
      CreateCall collection_name data :: store_calls store (k r) s'
  | GetDocuments collection_name filter_dict limit k =>
      let '(r, s') := get_documents store collection_name filter_dict limit s in
      GetCall collection_name filter_dict limit :: store_calls store (k r) s'
  end.

(** ** The diagnostic endpoint [/test] *)

Module Diagnostics.

(** The texts of this endpoint hold code points above 255 (the marks in
    front of each status), so a [str] is here a list of code points. *)
Abbreviation text := (list N).

(** A literal of characters below 256. *)
Definition lit (s : string) : text := N_of_ascii <$> list_ascii_of_string s.

(** U+2705, U+274C and U+26A0 U+FE0F: the check mark, the cross and the
    warning sign that open the status texts. *)
Definition check_mark : text := [9989%N].
Definition cross_mark : text := [10060%N].
Definition warning_sign : text := [9888%N; 65039%N].

(** The values of the response: [None], a [str], a list of [str]. *)
Inductive value : Type :=
| VNone
| VStr (t : text)
| VList (l : list text).

(** The outcome of an operation that may raise: a value, or an exception
    [e] (an instance of [Exception]), kept as [str(e)]. *)
Inductive result (A : Type) : Type :=
| Value (a : A)
| Exc (e : text).
Arguments Value {A} a.
Arguments Exc {A} e.

(** Reading the attribute [name] of the database object: it has a value,
    or is missing ([AttributeError], which [hasattr] turns into [False]),
    or its getter raises something else. *)
Inductive attribute : Type :=
| Attr (v : text)
| NoAttr
| AttrRaises (e : text).

(** The global [db] of [database.py], when it is not [None]: what the
    endpoint reads of it. *)
Record Database : Type := {
  name : attribute;
  list_collection_names : result (list text)
}.

(** Statements that update the dict [response] and may raise: the dict
    keeps the updates made before an exception. *)
Definition M (A : Type) : Type :=
  gmap string value → result A * gmap string value.

#[export] Instance M_ret : MRet M := λ A a response, (Value a, response).

#[export] Instance M_bind : MBind M := λ A B f m response,
  match m response with
  | (Value a, response') => f a response'
  | (Exc e, response') => (Exc e, response')
  end.

Definition raise {A : Type} (e : text) : M A := λ response, (Exc e, response).

(** [try: body except Exception as e: handler(e)] *)
Definition try_except (body : M ()) (handler : text → M ()) : M () :=
  λ response,
    match body response with
    | (Value a, response') => (Value a, response')
    | (Exc e, response') => handler e response'
    end.

(** [response[key] = v] *)
Definition setitem (key : string) (v : value) : M () :=
  λ response, (Value (), <[key := v]> response).

(** [db.name if hasattr(db, 'name') else other]: [hasattr] reads the
    attribute, and [db.name] reads it again. *)
Definition name_or (d : Database) (other : text) : M text :=
  match name d with
  | Attr v => mret v
  | NoAttr => mret other
  | AttrRaises e => raise e
  end.

(** [os.getenv(key)], as a condition: set, and not to the empty text. *)
Definition getenv_truthy (environ : gmap string text) (key : string) : bool :=
  match environ !! key with
  | Some (_ :: _) => true
  | _ => false
  end.

(** [GET /test], for the global [db] and the environment of the process. *)
Definition test_database (db : option Database)
    (environ : gmap string text) : result (gmap string value) :=
  let response : gmap string value :=
    {[ "backend" := VStr (check_mark ++ lit " Running");
       "database" := VStr (cross_mark ++ lit " Not Available");
       "database_url" := VNone;
       "database_name" := VNone;
       "connection_status" := VStr (lit "Not Connected");
       "collections" := VList [] ]} in
  let body : M () :=
    try_except
      (match db with
       | Some db =>
           setitem "database" (VStr (check_mark ++ lit " Available"));;
           setitem "database_url" (VStr (check_mark ++ lit " Configured"));;
           n ← name_or db (check_mark ++ lit " Connected");
           setitem "database_name" (VStr n);;
           setitem "connection_status" (VStr (lit "Connected"));;
           try_except
             (collections ← (λ response, (list_collection_names db, response));
              setitem "collections" (VList (take 10 collections));;
              setitem "database"
                (VStr (check_mark ++ lit " Connected & Working")))
             (λ e,
                setitem "database"
                  (VStr (warning_sign ++ lit "  Connected but Error: "
                         ++ take 50 e)))
       | None =>
           setitem "database"
             (VStr (warning_sign ++ lit "  Available but not initialized"))
       end)
      (λ e, setitem "database" (VStr (cross_mark ++ lit " Error: " ++ take 50 e)));;
    setitem "database_url"
      (VStr (if getenv_truthy environ "DATABASE_URL"
             then check_mark ++ lit " Set" else cross_mark ++ lit " Not Set"));;
    setitem "database_name"
      (VStr (if getenv_truthy environ "DATABASE_NAME"
             then check_mark ++ lit " Set" else cross_mark ++ lit " Not Set"))
  in
  match body response with
  | (Value _, response) => Value response
  | (Exc e, _) => Exc e
  end.

(** A database that answers, one whose listing fails, and one whose
    attribute [name] cannot be read. *)
Definition working : Database := {|
  name := Attr (lit "appdb");
  list_collection_names :=
    Value (lit <$> ["c01"; "c02"; "c03"; "c04"; "c05"; "c06";
                    "c07"; "c08"; "c09"; "c10"; "c11"; "c12"])
|}.

Definition failing : Database := {|
  name := Attr (lit "appdb");
  list_collection_names :=
    Exc (lit "localhost:27017: [Errno 111] Connection refused, Timeout: 30s")
|}.

Definition broken : Database := {|
  name := AttrRaises (lit "name is not available");
  list_collection_names := Value []
|}.

Definition environment : gmap string text :=
  {[ "DATABASE_URL" := lit "mongodb://localhost:27017"; "DATABASE_NAME" := [] ]}.

End Diagnostics.

(** ** Facts about the [str] operations *)

Module PyFacts.
Import Py.

(** The white space and the capital letters below 256, as Python has
    them. *)
Example isspace_table :
  filter (λ n, Py.isspace (ascii_of_nat n) = true) (seq 0 256)
  = [9; 10; 11; 12; 13; 28; 29; 30; 31; 32; 133; 160].
Proof. vm_compute. reflexivity. Qed.

Example lower_char_table :
  filter (λ n, nat_of_ascii (Py.lower_char (ascii_of_nat n)) ≠ n) (seq 0 256)
  = seq 65 26 ++ seq 192 23 ++ seq 216 7
  ∧ Forall (λ n, nat_of_ascii (Py.lower_char (ascii_of_nat n)) = n + 32)
      (seq 65 26 ++ seq 192 23 ++ seq 216 7).
Proof. split; [vm_compute; reflexivity | by repeat constructor]. Qed.

Example strip_lower_contains :
  Py.strip "   " = "" ∧ Py.strip "  Hello World " = "Hello World"
  ∧ Py.lower "Self-HARM" = "self-harm"
  ∧ Py.contains "self-harm" "hurting myself" = false
  ∧ Py.contains "violence" "nonviolence" = true
  ∧ Py.slice_to 3 "hello" = "hel" ∧ Py.slice_to 40 "hello" = "hello".
Proof. by vm_compute. Qed.

Lemma app_cons (c : ascii) (s t : string) :
  String c s +:+ t = String c (s +:+ t).
Proof. reflexivity. Qed.

Lemma app_empty_l (s : string) : "" +:+ s = s.
Proof. reflexivity. Qed.

Lemma truthy_true (s : string) : truthy s = true ↔ s ≠ "".
Proof. destruct s; simpl; split; intros; congruence. Qed.

Lemma truthy_false (s : string) : truthy s = false ↔ s = "".
Proof. destruct s; simpl; split; intros; congruence. Qed.

Lemma or_else_empty (s : string) : or_else s "" = s.
Proof. by destruct s. Qed.

Lemma or_else_truthy (s d : string) : s ≠ "" → or_else s d = s.
Proof. intros Hs. unfold or_else. by destruct s. Qed.

Lemma startswith_spec (p s : string) :
  startswith p s = true ↔ ∃ q, s = p +:+ q.
Proof.
  revert s. induction p as [|a p IH]; intros s.
  - split; [intros _; by exists s | done].
  - destruct s as [|b s]; simpl.
    + split; [done | intros [q Hq]; discriminate Hq].
    + case_decide as Hab.
      * subst b. rewrite IH. split; intros [q Hq]; exists q.
        -- by rewrite app_cons, <- Hq.
        -- rewrite app_cons in Hq. by injection Hq.
      * split; [done | intros [q Hq]]. rewrite app_cons in Hq.
        injection Hq as Hb _. by destruct Hab.
Qed.

(** [contains] is the substring test. *)
Lemma contains_spec (w s : string) :
  contains w s = true ↔ substring_of w s.
Proof.
  induction s as [|c s IH].
  - simpl. rewrite orb_false_r, startswith_spec. split.
    + intros [q Hq]. by exists "", q.
    + intros [[|a p] [q Hq]]; [by exists q | discriminate Hq].
  - cbn [contains]. rewrite orb_true_iff, IH, startswith_spec. split.
    + intros [[q Hq] | (p & q & Hpq)].
      * by exists "", q.
      * exists (String c p), q. by rewrite app_cons, <- Hpq.
    + intros [[|a p] [q Hq]].
      * left. by exists q.
      * right. rewrite app_cons in Hq. injection Hq as _ Hs. by exists p, q.
Qed.

Lemma not_contains (w s : string) :
  contains w s = false ↔ ¬ substring_of w s.
Proof. rewrite <- contains_spec. by destruct (contains w s). Qed.

Lemma lstrip_empty (s : string) : lstrip s = "" ↔ all_space s = true.
Proof.
  induction s as [|c s IH]; simpl; [done |].
  destruct (isspace c); simpl; [done | split; discriminate].
Qed.

Lemma rstrip_empty (s : string) : rstrip s = "" ↔ all_space s = true.
Proof.
  induction s as [|c s IH]; simpl; [done |].
  destruct (rstrip s) as [|a r].
  - destruct (isspace c); simpl; [by rewrite <- IH | split; discriminate].
  - split; [discriminate |]. rewrite andb_true_iff, <- IH.
    intros [_ ?]; discriminate.
Qed.

Lemma all_space_lstrip (s : string) :
  all_space (lstrip s) = all_space s.
Proof.
  induction s as [|c s IH]; simpl; [done |].
  destruct (isspace c) eqn:Hc; simpl; [done | by rewrite Hc].
Qed.

(** A message is empty after trimming exactly when it is made of white
    space only. *)
Lemma strip_empty (s : string) : strip s = "" ↔ all_space s = true.
Proof. unfold strip. by rewrite rstrip_empty, all_space_lstrip. Qed.

(** [lstrip] removes a prefix of white space, up to the first other
    character. *)
Lemma lstrip_spec (s : string) :
  ∃ l, s = l +:+ lstrip s ∧ all_space l = true
       ∧ ∀ c r, lstrip s = String c r → isspace c = false.
Proof.
  induction s as [|c s (l & Hl & Hsp & Hhd)]; simpl.
  - by exists "".
  - destruct (isspace c) eqn:Hc.
    + exists (String c l). rewrite app_cons, <- Hl. simpl. by rewrite Hc.
    + exists "". split; [done |]. split; [done |]. by intros ? ? [= <- _].
Qed.

(** [rstrip] removes a suffix of white space and keeps the beginning. *)
Lemma rstrip_spec (s : string) :
  ∃ r, s = rstrip s +:+ r ∧ all_space r = true.
Proof.
  induction s as [|c s (r & Hr & Hsp)]; simpl.
  - by exists "".
  - destruct (rstrip s) as [|a t] eqn:Ht.
    + destruct (isspace c) eqn:Hc.
      * exists (String c r). split; [by rewrite Hr at 1 |]. simpl. by rewrite Hc.
      * exists r. split; [by rewrite Hr at 1 | done].
    + exists r. split; [| done]. rewrite app_cons. by rewrite Hr at 1.
Qed.

(** The trimmed message is the message without the white space around. *)
Lemma strip_spec (s : string) :
  ∃ l r, s = l +:+ strip s +:+ r ∧ all_space l = true ∧ all_space r = true.
Proof.
  destruct (lstrip_spec s) as (l & Hl & Hsp & _).
  destruct (rstrip_spec (lstrip s)) as (r & Hr & Hsr).
  exists l, r. unfold strip. by rewrite <- Hr.
Qed.

Lemma slice_to_nonempty (n : nat) (s : string) :
  s ≠ "" → slice_to (S n) s ≠ "".
Proof. by destruct s. Qed.

(** [s[:n]] is the beginning of [s], [n] characters long when [s] has as
    many. *)
Lemma slice_to_prefix (n : nat) (s : string) :
  ∃ q, s = slice_to n s +:+ q ∧ String.length (slice_to n s) = n `min` String.length s.
Proof.
  revert s. induction n as [|n IH]; intros [|c s]; simpl;
    [by exists "" | by eexists | by exists "" |].
  destruct (IH s) as (q & Hq & Hlen). exists q.
  rewrite app_cons, <- Hq. by rewrite Hlen.
Qed.

End PyFacts.

(** ** The handlers, step by step *)

Section HandlerFacts.
Context {raw : Type} `{!Str raw}.
Implicit Types (req : ChatRequest.t) (t : string).

Lemma user_text_strip req :
  user_text req = Py.strip (ChatRequest.message req).
Proof. unfold user_text. by rewrite PyFacts.or_else_empty. Qed.

(** A message that is empty after trimming is rejected before any call of
    the store. *)
Lemma chat_rejected req :
  Py.strip (ChatRequest.message req) = "" →
  chat (raw:=raw) req
  = Raise {| status_code := 400; detail := "Message cannot be empty" |}.
Proof. intros Ht. unfold chat. by rewrite user_text_strip, Ht. Qed.

(** Any other message leads to one call of the store, and to a response
    whatever the call gives. *)
Lemma chat_accepted req :
  Py.strip (ChatRequest.message req) ≠ "" →
  chat (raw:=raw) req
  = CreateDocument "conversation" (conv req) (fun r =>
      Return (ChatResponse.Build
                (safe_reply (Py.strip (ChatRequest.message req)))
                match r with
                | Returns conv_id => conv_id
                | Raises _ => "ephemeral"
                end)).
Proof.
  intros Ht. unfold chat. rewrite user_text_strip.
  apply PyFacts.truthy_true in Ht. by rewrite Ht.
Qed.

Lemma run_chat_accepted {db} (store : StoreClient raw db) req (s : db) :
  Py.strip (ChatRequest.message req) ≠ "" →
  run store (chat req) s
  = (Ok (ChatResponse.Build
           (safe_reply (Py.strip (ChatRequest.message req)))
           match (create_document store "conversation" (conv req) s).1 with
           | Returns conv_id => conv_id
           | Raises _ => "ephemeral"
           end),
     (create_document store "conversation" (conv req) s).2).
Proof.
  intros Ht. rewrite (chat_accepted _ Ht). simpl.
  by destruct (create_document store "conversation" (conv req) s).
Qed.

(** The reply is the echo when no word of the list occurs, the refusal
    when one does. *)
Lemma safe_reply_echo t :
  ¬ Py.substring_of "illegal" (Py.lower t) →
  ¬ Py.substring_of "violence" (Py.lower t) →
  ¬ Py.substring_of "self-harm" (Py.lower t) →
  safe_reply t = "You said: " +:+ t +:+ ". This is a demo assistant.".
Proof.
  intros H1 H2 H3. apply PyFacts.not_contains in H1, H2, H3.
  unfold safe_reply, blocked. simpl. by rewrite H1, H2, H3.
Qed.

Lemma safe_reply_refusal t :
  Py.substring_of "illegal" (Py.lower t)
  ∨ Py.substring_of "violence" (Py.lower t)
  ∨ Py.substring_of "self-harm" (Py.lower t) →
  safe_reply t = refusal.
Proof.
  rewrite <- !PyFacts.contains_spec. intros H.
  unfold safe_reply, blocked. simpl.
  destruct (Py.contains "illegal" _); [done |].
  destruct (Py.contains "violence" _); [done |].
  destruct (Py.contains "self-harm" _); [done |].
  by destruct H as [? | [? | ?]].
Qed.

(** Either reply is one of the two texts. *)
Lemma safe_reply_cases t :
  safe_reply t = refusal
  ∨ safe_reply t = "You said: " +:+ t +:+ ". This is a demo assistant.".
Proof. unfold safe_reply. destruct (existsb _ _); auto. Qed.

Lemma persists_chat req c :
  Py.strip (ChatRequest.message req) ≠ "" →
  persists (chat (raw:=raw) req) c ↔ c = conv req.
Proof.
  intros Ht. unfold persists. rewrite (chat_accepted _ Ht). split.
  - intros [k Hk]. by injection Hk.
  - intros ->. by eexists.
Qed.

(** The loop body of [list_conversations], key by key. *)
Lemma rename_id_other (d : document raw) (key : string) :
  key ≠ "id" → key ≠ "_id" → rename_id d !! key = d !! key.
Proof.
  intros H1 H2. unfold rename_id. destruct (d !! "_id").
  - by rewrite lookup_insert_ne, lookup_delete_ne.
  - by rewrite lookup_insert_ne.
Qed.

Lemma rename_id_internal (d : document raw) : rename_id d !! "_id" = None.
Proof.
  unfold rename_id. destruct (d !! "_id") eqn:Hd.
  - rewrite lookup_insert_ne by done. apply lookup_delete_eq.
  - by rewrite lookup_insert_ne.
Qed.

Lemma rename_id_some (d : document raw) (r : raw) :
  d !! "_id" = Some (Raw r) → rename_id d !! "id" = Some (PyStr (str r)).
Proof. intros Hd. unfold rename_id. rewrite Hd. apply lookup_insert_eq. Qed.

Lemma rename_id_none (d : document raw) :
  d !! "_id" = None → rename_id d = <["id" := PyNone]> d.
Proof. intros Hd. unfold rename_id. by rewrite Hd. Qed.

Lemma rename_id_public (d : document raw) : is_Some (rename_id d !! "id").
Proof.
  unfold rename_id. destruct (d !! "_id"); rewrite lookup_insert_eq; eauto.
Qed.
End HandlerFacts.

(** ** The properties of the specification *)

Section Claims.
Context {raw : Type} `{!Str raw}.
Context {db : Type} (store : StoreClient raw db).
Implicit Types (req : ChatRequest.t) (s : db).

(** C1. A message that is not empty after trimming and whose lowercased
    trimmed text contains none of "illegal", "violence", "self-harm" is
    answered with "You said: <trimmed message>. This is a demo
    assistant."; the message "I feel like hurting myself" is one of
    them: it is echoed, not blocked. *)
Theorem chat_echoes_unblocked_message req s :
  (Py.strip (ChatRequest.message req) ≠ "" →
   ¬ Py.substring_of "illegal" (Py.lower (Py.strip (ChatRequest.message req))) →
   ¬ Py.substring_of "violence" (Py.lower (Py.strip (ChatRequest.message req))) →
   ¬ Py.substring_of "self-harm" (Py.lower (Py.strip (ChatRequest.message req))) →
   ∃ conv_id,
     (run store (chat req) s).1
     = Ok (ChatResponse.Build
             ("You said: " +:+ Py.strip (ChatRequest.message req)
              +:+ ". This is a demo assistant.") conv_id))
  ∧ (ChatRequest.message req = "I feel like hurting myself" →
     ∃ conv_id,
       (run store (chat req) s).1
       = Ok (ChatResponse.Build
               "You said: I feel like hurting myself. This is a demo assistant."
               conv_id)).
Proof.
  assert (Hecho : Py.strip (ChatRequest.message req) ≠ "" →
    ¬ Py.substring_of "illegal" (Py.lower (Py.strip (ChatRequest.message req))) →
    ¬ Py.substring_of "violence" (Py.lower (Py.strip (ChatRequest.message req))) →
    ¬ Py.substring_of "self-harm" (Py.lower (Py.strip (ChatRequest.message req))) →
    ∃ conv_id,
      (run store (chat req) s).1
      = Ok (ChatResponse.Build
              ("You said: " +:+ Py.strip (ChatRequest.message req)
               +:+ ". This is a demo assistant.") conv_id)).
  { intros Ht H1 H2 H3. rewrite (run_chat_accepted _ _ _ Ht). simpl.
    rewrite (safe_reply_echo _ H1 H2 H3). by eexists. }
  split; [exact Hecho |]. intros Hm. rewrite Hm in Hecho.
  apply Hecho; [done | by apply PyFacts.not_contains ..].
Qed.

(** C2. A message that is not empty after trimming and whose lowercased
    text contains one of "illegal", "violence", "self-harm" is answered
    with the refusal, one text for all such messages. *)
Theorem chat_refuses_blocked_message req s :
  Py.strip (ChatRequest.message req) ≠ "" →
  Py.substring_of "illegal" (Py.lower (Py.strip (ChatRequest.message req)))
  ∨ Py.substring_of "violence" (Py.lower (Py.strip (ChatRequest.message req)))
  ∨ Py.substring_of "self-harm" (Py.lower (Py.strip (ChatRequest.message req))) →
  ∃ conv_id,
    (run store (chat req) s).1
    = Ok (ChatResponse.Build
            "I can't assist with that. If you're in danger or feeling unsafe, please seek professional help or contact local authorities."
            conv_id).
Proof.
  intros Ht Hw. rewrite (run_chat_accepted _ _ _ Ht). simpl.
  rewrite (safe_reply_refusal _ Hw). by eexists.
Qed.

(** C3. [chat] fails, with status 400, exactly when the message is empty
    after trimming: it raises no other error, the messages "" and "   "
    are rejected, and the store is not called on a rejected message. *)
Theorem chat_invalid_input_iff req s :
  ((∃ e, (run store (chat req) s).1 = Error e)
   ↔ Py.strip (ChatRequest.message req) = "")
  ∧ (∀ e, (run store (chat req) s).1 = Error e →
       e = {| status_code := 400; detail := "Message cannot be empty" |})
  ∧ (ChatRequest.message req = "" ∨ ChatRequest.message req = "   " →
     run store (chat req) s
     = (Error {| status_code := 400; detail := "Message cannot be empty" |},
        s)).
Proof.
  destruct (decide (Py.strip (ChatRequest.message req) = "")) as [Ht | Ht].
  - rewrite (chat_rejected _ Ht). simpl. split; [| split].
    + split; [done | by eexists].
    + by intros e [= <-].
    + done.
  - rewrite (run_chat_accepted _ _ _ Ht). simpl. split; [| split].
    + split; [by intros [e ?] | done].
    + done.
    + by intros [Hm | Hm]; rewrite Hm in Ht.
Qed.

(** C4. When the call of the store raises, whatever the exception, [chat]
    still answers: the reply it had computed, under the identifier
    "ephemeral"; when the call returns, the identifier is the one the
    store gave.  Either way [chat] does not fail. *)
Theorem chat_ephemeral_when_store_raises req s :
  Py.strip (ChatRequest.message req) ≠ "" →
  (∀ e s',
     create_document store "conversation" (conv req) s = (Raises e, s') →
     run store (chat req) s
     = (Ok (ChatResponse.Build
              (safe_reply (Py.strip (ChatRequest.message req)))
              "ephemeral"), s'))
  ∧ (∀ conv_id s',
       create_document store "conversation" (conv req) s
       = (Returns conv_id, s') →
       run store (chat req) s
       = (Ok (ChatResponse.Build
                (safe_reply (Py.strip (ChatRequest.message req)))
                conv_id), s'))
  ∧ ∃ conv_id,
      (run store (chat req) s).1
      = Ok (ChatResponse.Build
              (safe_reply (Py.strip (ChatRequest.message req))) conv_id).
Proof.
  intros Ht. rewrite (run_chat_accepted _ _ _ Ht).
  split; [| split]; [intros ? s' Hc; by rewrite Hc .. | by eexists].
Qed.

(** C5. The conversation that [chat] builds for an accepted message is
    titled with the first 40 characters of the trimmed message; these are
    never empty, so the title "New Chat", which the expression gives for
    an empty text, is not reached. *)
Theorem chat_title_is_first_40_characters req :
  Py.strip (ChatRequest.message req) ≠ "" →
  persists (chat (raw:=raw) req) (conv req)
  ∧ (∀ c, persists (chat (raw:=raw) req) c →
       Conversation.title c
       = Py.slice_to 40 (Py.strip (ChatRequest.message req)))
  ∧ Py.slice_to 40 (Py.strip (ChatRequest.message req)) ≠ ""
  ∧ Py.or_else (Py.slice_to 40 "") "New Chat" = "New Chat".
Proof.
  intros Ht.
  pose proof (PyFacts.slice_to_nonempty 39 _ Ht) as Hslice.
  split; [by apply persists_chat |]. split; [| done].
  intros c ->%persists_chat; [| done]. unfold conv. simpl.
  rewrite user_text_strip. by apply PyFacts.or_else_truthy.
Qed.

(** C6. The conversation that [chat] builds, for a blocked message as for
    any other, holds two messages: the user's, with the trimmed text and
    the model, tone and language of the request, then the assistant's,
    with the reply that is returned; so it holds at least one. *)
Theorem chat_conversation_has_two_messages req s :
  Py.strip (ChatRequest.message req) ≠ "" →
  ∃ reply conv_id,
    (run store (chat req) s).1 = Ok (ChatResponse.Build reply conv_id)
    ∧ persists (chat (raw:=raw) req) (conv req)
    ∧ ∀ c, persists (chat (raw:=raw) req) c →
        Conversation.messages c
        = [ChatMessage.Build user (Py.strip (ChatRequest.message req))
             (ChatRequest.model req) (ChatRequest.tone req)
             (ChatRequest.language req);
           ChatMessage.Build assistant reply None None None]
        ∧ 1 ≤ length (Conversation.messages c).
Proof.
  intros Ht. rewrite (run_chat_accepted _ _ _ Ht). simpl.
  do 2 eexists. split; [done |]. split; [by apply persists_chat |].
  intros c ->%persists_chat; [| done]. unfold conv. simpl.
  rewrite user_text_strip. split; [done | lia].
Qed.

Lemma run_list_conversations (limit : Z) s :
  run store (list_conversations limit) s
  = (match (get_documents store "conversation" ∅ limit s).1 with
     | Returns docs => Ok (rename_id <$> docs)
     | Raises e => Error {| status_code := 500; detail := e |}
     end,
     (get_documents store "conversation" ∅ limit s).2).
Proof.
  simpl. by destruct (get_documents store "conversation" ∅ limit s) as [[] ?].
Qed.

Lemma run_create_conversation (payload : Conversation.t) s :
  run store (create_conversation payload) s
  = (match (create_document store "conversation" payload s).1 with
     | Returns conv_id => Ok {[ "id" := PyStr conv_id ]}
     | Raises e => Error {| status_code := 500; detail := e |}
     end,
     (create_document store "conversation" payload s).2).
Proof.
  simpl. by destruct (create_document store "conversation" payload s) as [[] ?].
Qed.

(** C7. When the store answers [get_documents] with at most [limit]
    records, [list_conversations limit] returns as many, in the same
    order, so at most [limit]; each has a field [id], which is the
    [str] of the identifier that the store had put under [_id], and no
    field [_id]; its other fields are those of the store. *)
Theorem list_conversations_renames_id (limit : Z) s
    (docs : list (document raw)) s' :
  get_documents store "conversation" ∅ limit s = (Returns docs, s') →
  (Z.of_nat (length docs) ≤ limit)%Z →
  ∃ out : list (document raw),
    run store (list_conversations limit) s = (Ok out, s')
    ∧ (Z.of_nat (length out) ≤ limit)%Z
    ∧ length out = length docs
    ∧ ∀ (i : nat) (d : document raw), docs !! i = Some d →
        ∃ r : document raw,
          out !! i = Some r
          ∧ is_Some (r !! "id")
          ∧ r !! "_id" = None
          ∧ (∀ oid : raw, d !! "_id" = Some (Raw oid) →
               r !! "id" = Some (PyStr (str oid)))
          ∧ (∀ key : string, key ≠ "id" → key ≠ "_id" →
               r !! key = d !! key).
Proof.
  intros Hget Hlimit. exists (rename_id <$> docs).
  rewrite run_list_conversations, Hget. simpl.
  rewrite length_fmap. do 3 (split; [done |]).
  intros i d Hd. exists (rename_id d).
  rewrite list_lookup_fmap, Hd. simpl.
  eauto 10 using rename_id_public, rename_id_internal, rename_id_some,
    rename_id_other.
Qed.

(** C8. [create_conversation] and [list_conversations] fail exactly when
    their call of the store raises, with status 500 and the text of the
    exception as detail; otherwise [create_conversation] hands the
    conversation it received to the store, unchanged, and returns the
    identifier that the store gave, under [id]. *)
Theorem storage_error_iff_store_raises (payload : Conversation.t)
    (limit : Z) s :
  ((∀ e s',
      create_document store "conversation" payload s = (Raises e, s') →
      run store (create_conversation payload) s
      = (Error {| status_code := 500; detail := e |}, s'))
   ∧ (∀ conv_id s',
        create_document store "conversation" payload s
        = (Returns conv_id, s') →
        run store (create_conversation payload) s
        = (Ok {[ "id" := PyStr conv_id ]}, s'))
   ∧ (∀ c, persists (create_conversation (raw:=raw) payload) c ↔ c = payload)
   ∧ ((∃ e, (run store (create_conversation payload) s).1 = Error e)
      ↔ ∃ e, (create_document store "conversation" payload s).1 = Raises e))
  ∧ ((∀ e s',
        get_documents store "conversation" ∅ limit s = (Raises e, s') →
        run store (list_conversations limit) s
        = (Error {| status_code := 500; detail := e |}, s'))
     ∧ (∀ docs s',
          get_documents store "conversation" ∅ limit s = (Returns docs, s') →
          ∃ out, run store (list_conversations limit) s = (Ok out, s'))
     ∧ ((∃ e, (run store (list_conversations limit) s).1 = Error e)
        ↔ ∃ e, (get_documents store "conversation" ∅ limit s).1 = Raises e)).
Proof.
  rewrite run_create_conversation, run_list_conversations. split.
  - split; [by intros e s' -> |]. split; [by intros c s' -> |]. split.
    + intros c. unfold persists, create_conversation. split.
      * intros [k Hk]. by injection Hk.
      * intros ->. by eexists.
    + simpl. destruct (create_document store "conversation" payload s).1;
        split; intros [e' He']; (done || by eexists).
  - split; [by intros e s' -> |]. split.
    + intros docs s' ->. by eexists.
    + simpl. destruct (get_documents store "conversation" ∅ limit s).1;
        split; intros [e' He']; (done || by eexists).
Qed.

(** C9. The response of [chat] does not depend on the [conversation_id]
    of the request: two requests that differ in it only lead to the same
    calls of the store and, on the same database, to the same reply and
    the same identifier. *)
Theorem chat_ignores_conversation_id (c1 c2 : option string)
    (message : string) (model tone language : option string) s :
  chat (raw:=raw) (ChatRequest.Build c1 message model tone language)
  = chat (ChatRequest.Build c2 message model tone language)
  ∧ run store (chat (ChatRequest.Build c1 message model tone language)) s
    = run store (chat (ChatRequest.Build c2 message model tone language)) s.
Proof. split; reflexivity. Qed.

(** C10. A record of the store without a field [_id] is returned by
    [list_conversations] all the same, at its place, with [None] under
    [id]: it is neither left out nor the cause of an error. *)
Theorem list_conversations_keeps_record_without_id (limit : Z) s
    (docs : list (document raw)) s' (i : nat) (d : document raw) :
  get_documents store "conversation" ∅ limit s = (Returns docs, s') →
  docs !! i = Some d →
  d !! "_id" = None →
  ∃ out : list (document raw),
    run store (list_conversations limit) s = (Ok out, s')
    ∧ length out = length docs
    ∧ out !! i = Some (<["id" := PyNone]> d)
    ∧ (<["id" := PyNone]> d : document raw) !! "id" = Some PyNone.
Proof.
  intros Hget Hd Hid. exists (rename_id <$> docs).
  rewrite run_list_conversations, Hget. simpl.
  rewrite length_fmap, list_lookup_fmap, Hd. simpl.
  rewrite (rename_id_none _ Hid).
  do 3 (split; [done |]). apply lookup_insert_eq.
Qed.
End Claims.

(** ** The properties on concrete requests and stores *)

Lemma chat_echoes_unblocked_message_witness :
  ∃ conv_id,
    (run in_memory (chat (request "I feel like hurting myself")) []).1
    = Ok (ChatResponse.Build
            "You said: I feel like hurting myself. This is a demo assistant."
            conv_id).
Proof.
  apply (proj1 (chat_echoes_unblocked_message in_memory
                  (request "I feel like hurting myself") [])).
  - vm_compute. discriminate.
  - apply PyFacts.not_contains. vm_compute. reflexivity.
  - apply PyFacts.not_contains. vm_compute. reflexivity.
  - apply PyFacts.not_contains. vm_compute. reflexivity.
Defined.

Lemma chat_refuses_blocked_message_witness :
  ∃ conv_id,
    (run in_memory (chat (request "  Is this ILLEGAL? ")) []).1
    = Ok (ChatResponse.Build refusal conv_id).
Proof.
  apply (chat_refuses_blocked_message in_memory
           (request "  Is this ILLEGAL? ") []).
  - vm_compute. discriminate.
  - left. apply PyFacts.contains_spec. vm_compute. reflexivity.
Defined.

Lemma chat_invalid_input_iff_witness :
  run unavailable (chat (request "   ")) ()
  = (Error {| status_code := 400; detail := "Message cannot be empty" |}, ()).
Proof.
  apply (chat_invalid_input_iff unavailable (request "   ") ()).
  right. reflexivity.
Defined.

Lemma chat_ephemeral_when_store_raises_witness :
  run unavailable (chat (request "hello")) ()
  = (Ok (ChatResponse.Build "You said: hello. This is a demo assistant."
           "ephemeral"), ()).
Proof.
  apply (proj1 (chat_ephemeral_when_store_raises unavailable (request "hello")
                  () ltac:(vm_compute; discriminate))
           "Database not available" ()).
  reflexivity.
Defined.

Lemma chat_title_is_first_40_characters_witness :
  Conversation.title
    (conv (request "  Please summarise the quarterly report for the board  "))
  = "Please summarise the quarterly report fo".
Proof.
  apply (chat_title_is_first_40_characters (raw:=bson)
           (request "  Please summarise the quarterly report for the board  ")).
  - vm_compute. discriminate.
  - unfold persists. eexists. vm_compute. reflexivity.
Defined.

Lemma chat_conversation_has_two_messages_witness :
  ∃ reply conv_id,
    (run in_memory (chat (request "violence")) []).1
    = Ok (ChatResponse.Build reply conv_id)
    ∧ persists (chat (raw:=bson) (request "violence")) (conv (request "violence"))
    ∧ ∀ c, persists (chat (raw:=bson) (request "violence")) c →
        Conversation.messages c
        = [ChatMessage.Build user "violence" None None None;
           ChatMessage.Build assistant reply None None None]
        ∧ 1 ≤ length (Conversation.messages c).
Proof.
  apply (chat_conversation_has_two_messages in_memory (request "violence") []).
  vm_compute. discriminate.
Defined.

Lemma list_conversations_renames_id_witness :
  ∃ out : list (document bson),
    run two_records (list_conversations 2) () = (Ok out, ())
    ∧ (Z.of_nat (length out) ≤ 2)%Z
    ∧ length out = 2
    ∧ ∀ (i : nat) (d : document bson),
        [stored_record; bare_record] !! i = Some d →
        ∃ r : document bson,
          out !! i = Some r
          ∧ is_Some (r !! "id")
          ∧ r !! "_id" = None
          ∧ (∀ oid : bson, d !! "_id" = Some (Raw oid) →
               r !! "id" = Some (PyStr (str oid)))
          ∧ (∀ key : string, key ≠ "id" → key ≠ "_id" → r !! key = d !! key).
Proof.
  apply (list_conversations_renames_id two_records 2 ()
           [stored_record; bare_record] ()).
  - reflexivity.
  - vm_compute. discriminate.
Defined.

Lemma storage_error_iff_store_raises_witness :
  run unavailable (create_conversation (conv (request "hello"))) ()
  = (Error {| status_code := 500; detail := "Database not available" |}, ()).
Proof.
  apply (proj1 (proj1 (storage_error_iff_store_raises unavailable
                         (conv (request "hello")) 20 ()))
           "Database not available" ()).
  reflexivity.
Defined.

Lemma list_conversations_keeps_record_without_id_witness :
  ∃ out : list (document bson),
    run two_records (list_conversations 2) () = (Ok out, ())
    ∧ length out = 2
    ∧ out !! 1 = Some (<["id" := PyNone]> bare_record)
    ∧ (<["id" := PyNone]> bare_record : document bson) !! "id" = Some PyNone.
Proof.
  apply (list_conversations_keeps_record_without_id two_records 2 ()
           [stored_record; bare_record] () 1 bare_record).
  - reflexivity.
  - reflexivity.
  - vm_compute. reflexivity.
Defined.

(** A chat on the in-memory store, then a listing: the conversation is
    listed under the identifier that [chat] returned. *)
Example chat_then_list :
  ∃ s,
    run in_memory (chat (request " hello ")) []
    = (Ok (ChatResponse.Build "You said: hello. This is a demo assistant." "c0"),
       s)
    ∧ (run in_memory (list_conversations 20) s).1
      = Ok [ {[ "id" := PyStr "c0"; "title" := Raw (Text "hello") ]} ].
Proof. eexists. split; vm_compute; reflexivity. Qed.

(** ** More on trimming and lowercasing *)

Module TrimFacts.
Import Py PyFacts.

Lemma lower_app (a b : string) : lower (a +:+ b) = lower a +:+ lower b.
Proof.
  induction a as [|c a IH]; [done |].
  rewrite app_cons. simpl. by rewrite IH.
Qed.

(** Lowercasing leaves white space alone and makes none. *)
Lemma isspace_lower_char (c : ascii) : isspace (lower_char c) = isspace c.
Proof. by destruct c as [[] [] [] [] [] [] [] []]. Qed.

Lemma app_empty_r (s : string) : s +:+ "" = s.
Proof. induction s as [|c s IH]; [done |]. by rewrite app_cons, IH. Qed.

Lemma app_assoc (a b c : string) : (a +:+ b) +:+ c = a +:+ b +:+ c.
Proof. induction a as [|x a IH]; [done |]. by rewrite !app_cons, IH. Qed.

Lemma app_eq_empty (a b : string) : a +:+ b = "" → a = "" ∧ b = "".
Proof. by destruct a. Qed.

Lemma length_app (a b : string) :
  String.length (a +:+ b) = String.length a + String.length b.
Proof. induction a as [|x a IH]; [done |]. rewrite app_cons. simpl. by rewrite IH. Qed.

Lemma lstrip_space_l (l s : string) :
  all_space l = true → lstrip (l +:+ s) = lstrip s.
Proof.
  induction l as [|c l IH]; [done |]. simpl.
  intros [Hc Hl]%andb_true_iff. rewrite Hc. auto.
Qed.

Lemma lstrip_app (a b : string) :
  lstrip a ≠ "" → lstrip (a +:+ b) = lstrip a +:+ b.
Proof.
  induction a as [|c a IH]; [done |]. rewrite app_cons. simpl.
  destruct (isspace c); [exact IH | by rewrite app_cons].
Qed.

Lemma rstrip_space_r (a r : string) :
  all_space r = true → rstrip (a +:+ r) = rstrip a.
Proof.
  intros Hr. induction a as [|c a IH].
  - by apply rstrip_empty.
  - rewrite app_cons. simpl. by rewrite IH.
Qed.

Lemma rstrip_app (a b : string) :
  rstrip b ≠ "" → rstrip (a +:+ b) = a +:+ rstrip b.
Proof.
  intros Hb. induction a as [|c a IH]; [done |].
  rewrite !app_cons. simpl. rewrite IH.
  destruct (a +:+ rstrip b) eqn:Hab; [| done].
  by apply app_eq_empty in Hab as [_ ?].
Qed.

(** White space around a text does not change what trimming gives. *)
Lemma strip_padding (l m r : string) :
  all_space l = true → all_space r = true →
  strip (l +:+ m +:+ r) = strip m.
Proof.
  intros Hl Hr. unfold strip. rewrite (lstrip_space_l _ _ Hl).
  destruct (lstrip m) as [|c t] eqn:Hm.
  - apply lstrip_empty in Hm. simpl. apply rstrip_empty.
    rewrite all_space_lstrip.
    clear -Hm Hr. induction m as [|x m IH]; [done |].
    simpl in Hm. apply andb_true_iff in Hm as [Hx Hm].
    rewrite app_cons. simpl. by rewrite Hx, IH.
  - rewrite lstrip_app by (by rewrite Hm). rewrite Hm.
    by apply rstrip_space_r.
Qed.

(** Trimming twice is trimming once. *)
Lemma strip_idempotent (s : string) : strip (strip s) = strip s.
Proof.
  destruct (strip_spec s) as (l & r & Hs & Hl & Hr).
  rewrite Hs at 2. symmetry. by apply strip_padding.
Qed.

(** What [rstrip] gives is the beginning of its argument, so both start
    with the same character. *)
Lemma rstrip_head (s : string) (c : ascii) (t : string) :
  rstrip s = String c t → ∃ t', s = String c t'.
Proof.
  destruct s as [|x s]; [done |]. simpl.
  destruct (rstrip s); [destruct (isspace x) |]; intros [= <- _]; eauto.
Qed.

(** A trimmed text does not start with white space. *)
Lemma strip_head (s : string) (c : ascii) (t : string) :
  strip s = String c t → isspace c = false.
Proof.
  unfold strip. intros (t' & Ht')%rstrip_head.
  destruct (lstrip_spec s) as (_ & _ & _ & Hhd). eauto.
Qed.

Lemma rstrip_last (s p : string) (c : ascii) :
  rstrip s = p +:+ String c "" → isspace c = false.
Proof.
  revert p. induction s as [|x s IH]; intros p; simpl.
  - by destruct p.
  - destruct (rstrip s) as [|y u] eqn:Hu.
    + destruct (isspace x) eqn:Hx; [by destruct p |].
      destruct p as [|z p]; simpl.
      * by intros [= <-].
      * intros [= _ Hp]. by destruct p.
    + destruct p as [|z p]; simpl; [done |].
      intros [= _ Hp]. by apply (IH p).
Qed.

(** A trimmed text does not end with white space. *)
Lemma strip_last (s p : string) (c : ascii) :
  strip s = p +:+ String c "" → isspace c = false.
Proof. apply rstrip_last. Qed.

(** A word that is neither empty nor changed by [lstrip] and [rstrip]
    survives the trimming of a text it occurs in. *)
Lemma lstrip_keeps (p w q : string) :
  w ≠ "" → lstrip w = w → ∃ p', lstrip (p +:+ w +:+ q) = p' +:+ w +:+ q.
Proof.
  intros Hw Hl. induction p as [|a p [p' IH]].
  - exists "". rewrite !app_empty_l, lstrip_app by (by rewrite Hl).
    by rewrite Hl.
  - rewrite app_cons. simpl. destruct (isspace a); [by exists p' |].
    exists (String a p). by rewrite app_cons.
Qed.

Lemma rstrip_keeps (w q : string) :
  w ≠ "" → rstrip w = w → ∃ q', rstrip (w +:+ q) = w +:+ q'.
Proof.
  induction w as [|c w IH]; [done |]. intros _. simpl.
  destruct (rstrip w) as [|y u] eqn:Hu.
  - destruct (isspace c) eqn:Hc; [done |]. intros [= <-].
    change ("" +:+ q) with q.
    destruct (rstrip q) as [|z v]; [by exists "" | by exists (String z v)].
  - intros [= Hw]. destruct IH as [q' Hq']; [by rewrite <- Hw | done |].
    exists q'. rewrite Hq', app_cons.
    destruct (w +:+ q') eqn:Hwq; [| done].
    apply app_eq_empty in Hwq as [-> _]. done.
Qed.

Lemma strip_keeps (p w q : string) :
  w ≠ "" → lstrip w = w → rstrip w = w →
  ∃ p' q', strip (p +:+ w +:+ q) = p' +:+ w +:+ q'.
Proof.
  intros Hw Hl Hr. unfold strip.
  destruct (lstrip_keeps p w q Hw Hl) as [p' ->].
  destruct (rstrip_keeps w q Hw Hr) as [q' Hq'].
  exists p', q'. rewrite rstrip_app; rewrite Hq'; [done |].
  intros [-> _]%app_eq_empty. done.
Qed.

End TrimFacts.

(** ** Further properties of the handlers *)

Section HandlerProperties.
Context {raw : Type} `{!Str raw}.
Context {db : Type} (store : StoreClient raw db).
Implicit Types (req : ChatRequest.t) (s : db) (d : document raw).

Lemma conv_title req :
  Py.strip (ChatRequest.message req) ≠ "" →
  Conversation.title (conv req)
  = Py.slice_to 40 (Py.strip (ChatRequest.message req)).
Proof.
  intros Ht. unfold conv. cbn [Conversation.title].
  rewrite user_text_strip.
  apply PyFacts.or_else_truthy. by apply (PyFacts.slice_to_nonempty 39).
Qed.

Lemma echo_is_not_refusal (t : string) :
  "You said: " +:+ t +:+ ". This is a demo assistant." ≠ refusal.
Proof. unfold refusal. simpl. discriminate. Qed.

Lemma safe_reply_blocked_word (t word : string) :
  word ∈ blocked → Py.substring_of word (Py.lower t) → safe_reply t = refusal.
Proof.
  intros Hin Hsub. apply safe_reply_refusal.
  unfold blocked in Hin. rewrite !elem_of_cons, elem_of_nil in Hin.
  destruct Hin as [-> | [-> | [-> | []]]]; auto.
Qed.

(** A word without white space is left as it is by [lstrip] and [rstrip];
    so is a word whose lowercase has none. *)
Lemma no_space_lstrip (w : string) :
  Forall (λ c, Py.isspace c = false) (list_ascii_of_string w) →
  Py.lstrip w = w.
Proof. destruct w as [|c w]; [done |]. simpl. by intros [-> _]%Forall_cons. Qed.

Lemma no_space_rstrip (w : string) :
  Forall (λ c, Py.isspace c = false) (list_ascii_of_string w) →
  Py.rstrip w = w.
Proof.
  induction w as [|c w IH]; [done |]. simpl.
  intros [Hc Hw]%Forall_cons. rewrite (IH Hw), Hc. by destruct w.
Qed.

Lemma no_space_lower (w : string) :
  Forall (λ c, Py.isspace c = false) (list_ascii_of_string (Py.lower w)) →
  Forall (λ c, Py.isspace c = false) (list_ascii_of_string w).
Proof.
  induction w as [|c w IH]; [done |]. simpl.
  intros [Hc Hw]%Forall_cons. constructor; [| by apply IH].
  by rewrite <- TrimFacts.isspace_lower_char.
Qed.

Lemma blocked_word_no_space (w : string) :
  Py.lower w ∈ blocked →
  w ≠ "" ∧ Py.lstrip w = w ∧ Py.rstrip w = w.
Proof.
  intros Hin.
  assert (Forall (λ c, Py.isspace c = false)
            (list_ascii_of_string (Py.lower w))) as Hsp.
  { unfold blocked in Hin. rewrite !elem_of_cons, elem_of_nil in Hin.
    destruct Hin as [-> | [-> | [-> | []]]]; by repeat constructor. }
  apply no_space_lower in Hsp.
  split; [| by split; [apply no_space_lstrip | apply no_space_rstrip]].
  intros ->. unfold blocked in Hin. rewrite !elem_of_cons, elem_of_nil in Hin.
  by destruct Hin as [? | [? | [? | []]]].
Qed.

(** X1. For an accepted message the reply is the refusal exactly when the
    lowercased trimmed message contains "illegal", "violence" or
    "self-harm": the echo is never mistaken for the refusal. *)
Theorem chat_refusal_iff_blocked req s :
  Py.strip (ChatRequest.message req) ≠ "" →
  ∃ reply conv_id,
    (run store (chat req) s).1 = Ok (ChatResponse.Build reply conv_id)
    ∧ (reply = refusal
       ↔ Py.substring_of "illegal" (Py.lower (Py.strip (ChatRequest.message req)))
         ∨ Py.substring_of "violence" (Py.lower (Py.strip (ChatRequest.message req)))
         ∨ Py.substring_of "self-harm" (Py.lower (Py.strip (ChatRequest.message req)))).
Proof.
  intros Ht. rewrite (run_chat_accepted _ _ _ Ht). simpl.
  do 2 eexists. split; [done |]. split; [| apply safe_reply_refusal].
  intros Hrefusal.
  destruct (Py.contains "illegal" (Py.lower (Py.strip (ChatRequest.message req))))
    eqn:H1; [left; by apply PyFacts.contains_spec |].
  destruct (Py.contains "violence" (Py.lower (Py.strip (ChatRequest.message req))))
    eqn:H2; [right; left; by apply PyFacts.contains_spec |].
  destruct (Py.contains "self-harm" (Py.lower (Py.strip (ChatRequest.message req))))
    eqn:H3; [right; right; by apply PyFacts.contains_spec |].
  apply PyFacts.not_contains in H1, H2, H3.
  rewrite (safe_reply_echo _ H1 H2 H3) in Hrefusal.
  by apply echo_is_not_refusal in Hrefusal.
Qed.

(** X2. A message in which a blocked word occurs anywhere, in any mix of
    upper and lower case, is accepted and answered with the refusal. *)
Theorem chat_refuses_any_casing req (p w q : string) s :
  ChatRequest.message req = p +:+ w +:+ q →
  Py.lower w ∈ blocked →
  ∃ conv_id,
    (run store (chat req) s).1 = Ok (ChatResponse.Build refusal conv_id).
Proof.
  intros Hm Hw.
  destruct (blocked_word_no_space _ Hw) as (Hne & Hl & Hr).
  destruct (TrimFacts.strip_keeps p w q Hne Hl Hr) as (p' & q' & Hstrip).
  rewrite <- Hm in Hstrip.
  assert (Py.strip (ChatRequest.message req) ≠ "") as Ht.
  { rewrite Hstrip. intros [_ [? _]%TrimFacts.app_eq_empty]%TrimFacts.app_eq_empty.
    done. }
  rewrite (run_chat_accepted _ _ _ Ht). simpl.
  rewrite (safe_reply_blocked_word _ _ Hw); [by eexists |].
  rewrite Hstrip, !TrimFacts.lower_app. by eexists _, _.
Qed.

(** X3. The title of the conversation that [chat] builds is the beginning
    of the trimmed message, has between 1 and 40 characters, and is the
    whole trimmed message when that has at most 40. *)
Theorem chat_title_bounds req (c : Conversation.t) :
  Py.strip (ChatRequest.message req) ≠ "" →
  persists (chat (raw:=raw) req) c →
  (∃ rest, Py.strip (ChatRequest.message req) = Conversation.title c +:+ rest)
  ∧ String.length (Conversation.title c)
    = 40 `min` String.length (Py.strip (ChatRequest.message req))
  ∧ 1 ≤ String.length (Conversation.title c) ≤ 40
  ∧ (String.length (Py.strip (ChatRequest.message req)) ≤ 40 →
     Conversation.title c = Py.strip (ChatRequest.message req)).
Proof.
  intros Ht ->%persists_chat; [| done]. rewrite (conv_title _ Ht).
  destruct (PyFacts.slice_to_prefix 40 (Py.strip (ChatRequest.message req)))
    as (rest & Hrest & Hlen).
  assert (String.length (Py.strip (ChatRequest.message req)) ≠ 0) as Hpos
    by (by destruct (Py.strip (ChatRequest.message req))).
  split; [by exists rest |]. split; [done |]. split; [lia |].
  intros Hshort. rewrite Hrest at 2.
  assert (String.length rest = 0) as Hnil.
  { apply (f_equal String.length) in Hrest.
    rewrite TrimFacts.length_app in Hrest. lia. }
  destruct rest; [by rewrite TrimFacts.app_empty_r | done].
Qed.

(** X4. White space before and after the message changes nothing: the
    padded and the bare message are rejected alike, or lead to the same
    call of the store and the same response. *)
Theorem chat_ignores_padding (l m r : string) (cid model tone language : option string) :
  Py.all_space l = true → Py.all_space r = true →
  chat (raw:=raw) (ChatRequest.Build cid (l +:+ m +:+ r) model tone language)
  = chat (ChatRequest.Build cid m model tone language).
Proof.
  intros Hl Hr. unfold chat, conv, user_text. simpl.
  by rewrite !PyFacts.or_else_empty, (TrimFacts.strip_padding _ _ _ Hl Hr).
Qed.

(** X5. The text of the user that [chat] hands to the store is trimmed: it
    neither starts nor ends with white space, trimming leaves it as it
    is, and sending it again gives the same calls and the same response
    as the first request. *)
Theorem chat_stores_trimmed_text req (c : Conversation.t) :
  Py.strip (ChatRequest.message req) ≠ "" →
  persists (chat (raw:=raw) req) c →
  ∃ u a,
    Conversation.messages c = [u; a]
    ∧ Py.strip (ChatMessage.content u) = ChatMessage.content u
    ∧ (∀ x t, ChatMessage.content u = String x t → Py.isspace x = false)
    ∧ (∀ t x, ChatMessage.content u = t +:+ String x "" → Py.isspace x = false)
    ∧ chat (raw:=raw)
        (ChatRequest.Build (ChatRequest.conversation_id req)
           (ChatMessage.content u) (ChatRequest.model req)
           (ChatRequest.tone req) (ChatRequest.language req))
      = chat req.
Proof.
  intros Ht ->%persists_chat; [| done]. unfold conv. simpl.
  do 2 eexists. split; [done |]. simpl. rewrite user_text_strip.
  split; [apply TrimFacts.strip_idempotent |].
  split; [intros x t; apply TrimFacts.strip_head |].
  split; [intros t x; apply TrimFacts.strip_last |].
  destruct req as [cid m md tn lg]. simpl.
  unfold chat, conv, user_text. simpl.
  by rewrite !PyFacts.or_else_empty, TrimFacts.strip_idempotent.
Qed.

(** X6. Each handler calls the store once and does not try again when the
    call raises: [chat] creates one document, and calls nothing for a
    message it rejects; [create_conversation] creates one document;
    [list_conversations] reads once, with an empty filter and the limit
    it was given, and writes nothing. *)
Theorem handlers_call_store_once req (payload : Conversation.t) (limit : Z) s :
  store_calls store (chat req) s
  = (if decide (Py.strip (ChatRequest.message req) = "") then []
     else [CreateCall "conversation" (conv req)])
  ∧ store_calls store (create_conversation payload) s
    = [CreateCall "conversation" payload]
  ∧ store_calls store (list_conversations limit) s
    = [GetCall "conversation" ∅ limit].
Proof.
  split; [| split].
  - case_decide as Ht.
    + by rewrite (chat_rejected _ Ht).
    + rewrite (chat_accepted _ Ht). simpl.
      by destruct (create_document store "conversation" (conv req) s) as [[] ?].
  - simpl. by destruct (create_document store "conversation" payload s) as [[] ?].
  - simpl. by destruct (get_documents store "conversation" ∅ limit s) as [[] ?].
Qed.

Lemma dom_rename_id d : dom (rename_id d) = {["id"]} ∪ (dom d ∖ {["_id"]}).
Proof.
  unfold rename_id. destruct (d !! "_id") eqn:Hd.
  - by rewrite dom_insert_L, dom_delete_L.
  - rewrite dom_insert_L. f_equal. symmetry. apply difference_disjoint_L.
    apply disjoint_singleton_r. by apply not_elem_of_dom.
Qed.

(** X7. The fields of a record that [list_conversations] returns are
    those of the record of the store, without [_id] and with [id]. *)
Theorem list_conversations_fields (limit : Z) s (docs : list (document raw)) s'
    (i : nat) d :
  get_documents store "conversation" ∅ limit s = (Returns docs, s') →
  docs !! i = Some d →
  ∃ out r,
    run store (list_conversations limit) s = (Ok out, s')
    ∧ out !! i = Some r
    ∧ dom r = {["id"]} ∪ (dom d ∖ {["_id"]}).
Proof.
  intros Hget Hd. exists (rename_id <$> docs), (rename_id d).
  simpl. rewrite Hget. simpl.
  rewrite list_lookup_fmap, Hd. by rewrite dom_rename_id.
Qed.

(** X8. A field [id] that the store keeps in a record is never shown: the
    loop of [list_conversations] overwrites it, so the record gives the
    same result with or without it. *)
Theorem rename_id_overwrites_stored_id d (v : value raw) :
  rename_id (<["id" := v]> d) = rename_id d.
Proof.
  unfold rename_id. rewrite lookup_insert_ne by done.
  destruct (d !! "_id").
  - by rewrite delete_insert_ne, insert_insert_eq.
  - by rewrite insert_insert_eq.
Qed.

(** X9. A record that went through the loop of [list_conversations] has no
    [_id] left: put through the loop again, it ends with [None] under
    [id], whatever identifier it had. *)
Theorem rename_id_twice d :
  rename_id (rename_id d) = <["id" := PyNone]> (delete "_id" d).
Proof.
  rewrite (rename_id_none (rename_id d)) by apply rename_id_internal.
  unfold rename_id. destruct (d !! "_id") eqn:Hd.
  - by rewrite insert_insert_eq.
  - by rewrite insert_insert_eq, delete_id.
Qed.

(** X15. [list_conversations] leaves the limit to the store: it returns
    every record of the answer, in the same number, also when the store
    answers with more than [limit] records or when [limit] is zero or
    negative. *)
Theorem list_conversations_does_not_truncate (limit : Z) s
    (docs : list (document raw)) s' :
  get_documents store "conversation" ∅ limit s = (Returns docs, s') →
  ∃ out : list (document raw),
    run store (list_conversations limit) s = (Ok out, s')
    ∧ length out = length docs.
Proof.
  intros Hget. exists (rename_id <$> docs). simpl. rewrite Hget. simpl.
  by rewrite length_fmap.
Qed.
End HandlerProperties.

(** ** Properties of the diagnostic endpoint *)

Module DiagnosticsFacts.
Import Diagnostics.

(** Runs the statements of [test_database] on the initial [response]. *)
Ltac run_test_database :=
  unfold test_database, try_except, setitem, name_or, raise,
    mbind, M_bind, mret, M_ret;
  cbn [name list_collection_names].

(** X10. [test_database] never raises, whatever the database object does:
    it returns a response with the same six fields, of which [backend]
    always reads as running. *)
Theorem test_database_never_raises (db : option Database)
    (environ : gmap string text) :
  ∃ r : gmap string value,
    test_database db environ = Value r
    ∧ dom r = {[ "backend"; "database"; "database_url"; "database_name";
                 "connection_status"; "collections" ]}
    ∧ r !! "backend" = Some (VStr (check_mark ++ lit " Running")).
Proof.
  destruct db as [[[v| |e] [names|e']]|]; run_test_database;
    (eexists; split; [reflexivity |]; split;
     [rewrite !dom_insert_L, dom_singleton_L; set_solver
     | by simplify_map_eq]).
Qed.

(** X11. The fields [database_url] and [database_name] tell whether the
    variables DATABASE_URL and DATABASE_NAME are set to a text that is not
    empty, and nothing else: the name of the database and what was
    written there before are overwritten. *)
Theorem test_database_reports_environment (db : option Database)
    (environ : gmap string text) :
  ∃ r : gmap string value,
    test_database db environ = Value r
    ∧ r !! "database_url"
      = Some (VStr match environ !! "DATABASE_URL" with
                   | Some (_ :: _) => check_mark ++ lit " Set"
                   | _ => cross_mark ++ lit " Not Set"
                   end)
    ∧ r !! "database_name"
      = Some (VStr match environ !! "DATABASE_NAME" with
                   | Some (_ :: _) => check_mark ++ lit " Set"
                   | _ => cross_mark ++ lit " Not Set"
                   end).
Proof.
  destruct db as [[[v| |e] [names|e']]|]; run_test_database;
    (eexists; split; [reflexivity |]); unfold getenv_truthy;
    (split; simplify_map_eq;
     [by destruct (environ !! "DATABASE_URL") as [[|? ?]|]
     | by destruct (environ !! "DATABASE_NAME") as [[|? ?]|]]).
Qed.

(** X12. The field [collections] holds the first ten names that the
    database lists, in their order, when the database is there, its
    [name] can be read and the listing returns; it is empty otherwise. *)
Theorem test_database_collections (db : option Database)
    (environ : gmap string text) :
  ∃ (r : gmap string value) (l : list text),
    test_database db environ = Value r
    ∧ r !! "collections" = Some (VList l)
    ∧ length l ≤ 10
    ∧ (∀ d names, db = Some d → (∀ e, name d ≠ AttrRaises e) →
         list_collection_names d = Value names → l = take 10 names)
    ∧ (db = None → l = [])
    ∧ (∀ d e, db = Some d →
         name d = AttrRaises e ∨ list_collection_names d = Exc e → l = []).
Proof.
  destruct db as [[[v| |e] [names|e']]|]; run_test_database;
    (eexists _, _; split; [reflexivity |]; split; [by simplify_map_eq |]);
    (split; [rewrite ?length_take; first [lia | simpl; lia] |]);
    (split; [intros d ? [= <-] Hname; simpl in *; try (by intros [= <-]);
             by destruct (Hname e) |]);
    (split; [done |]); by intros d ? [= <-] [? | ?].
Qed.

(** X13. [connection_status] reads "Connected" as soon as the database
    object is there and its [name] can be read, even when the listing of
    the collections raises; it reads "Not Connected" otherwise. *)
Theorem test_database_connection_status (db : option Database)
    (environ : gmap string text) :
  ∃ r : gmap string value,
    test_database db environ = Value r
    ∧ ((∃ d, db = Some d ∧ ∀ e, name d ≠ AttrRaises e) →
       r !! "connection_status" = Some (VStr (lit "Connected")))
    ∧ (db = None ∨ (∃ d e, db = Some d ∧ name d = AttrRaises e) →
       r !! "connection_status" = Some (VStr (lit "Not Connected"))).
Proof.
  destruct db as [[[v| |e] [names|e']]|]; run_test_database;
    (eexists; split; [reflexivity |]); simplify_map_eq;
    (split;
     [intros (d & [= <-] & Hname); simpl in *; try done;
      by destruct (Hname e)
     | intros [? | (d & ? & [= <-] & ?)]; by simplify_eq/= ]).
Qed.

(** X14. The field [database] ends as one of four texts: not initialized
    when there is no database object; an error with the first 50
    characters of the exception when reading [name] raises; connected but
    in error, again with the first 50 characters, when the listing raises;
    connected and working otherwise.  The text set at the start, "Not
    Available", is never returned. *)
Theorem test_database_status (db : option Database)
    (environ : gmap string text) :
  ∃ (r : gmap string value) (t : text),
    test_database db environ = Value r
    ∧ r !! "database" = Some (VStr t)
    ∧ t ≠ cross_mark ++ lit " Not Available"
    ∧ (db = None →
       t = warning_sign ++ lit "  Available but not initialized")
    ∧ (∀ d e, db = Some d → name d = AttrRaises e →
         t = cross_mark ++ lit " Error: " ++ take 50 e)
    ∧ (∀ d e, db = Some d → (∀ e', name d ≠ AttrRaises e') →
         list_collection_names d = Exc e →
         t = warning_sign ++ lit "  Connected but Error: " ++ take 50 e)
    ∧ (∀ d names, db = Some d → (∀ e', name d ≠ AttrRaises e') →
         list_collection_names d = Value names →
         t = check_mark ++ lit " Connected & Working").
Proof.
  destruct db as [[[v| |e] [names|e']]|]; run_test_database;
    (eexists _, _; split; [reflexivity |]; split; [by simplify_map_eq |]);
    (split; [done |]); (split; [done |]);
    (split; [by intros d ? [= <-] [= <-] |]);
    (split; intros d ? [= <-] Hname; simpl in *;
     try (by intros [= <-]); try done; by destruct (Hname e)).
Qed.

End DiagnosticsFacts.

(** ** The further properties on concrete requests, stores and databases *)

Lemma chat_refusal_iff_blocked_witness :
  ∃ reply conv_id,
    (run in_memory (chat (request "Nonviolence is the way")) []).1
    = Ok (ChatResponse.Build reply conv_id)
    ∧ (reply = refusal
       ↔ Py.substring_of "illegal" "nonviolence is the way"
         ∨ Py.substring_of "violence" "nonviolence is the way"
         ∨ Py.substring_of "self-harm" "nonviolence is the way").
Proof.
  apply (chat_refusal_iff_blocked in_memory
           (request "Nonviolence is the way") []).
  vm_compute. discriminate.
Defined.

Lemma chat_refuses_any_casing_witness :
  ∃ conv_id,
    (run unavailable (chat (request "  Is this ILLegal, or not? ")) ()).1
    = Ok (ChatResponse.Build refusal conv_id).
Proof.
  apply (chat_refuses_any_casing unavailable
           (request "  Is this ILLegal, or not? ")
           "  Is this " "ILLegal" ", or not? " ()).
  - reflexivity.
  - vm_compute. apply list_elem_of_here.
Defined.

Lemma chat_title_bounds_witness :
  String.length
    (Conversation.title
       (conv (request "  Please summarise the quarterly report for the board  ")))
  = 40 `min` 51.
Proof.
  apply (chat_title_bounds (raw:=bson)
           (request "  Please summarise the quarterly report for the board  ")).
  - vm_compute. discriminate.
  - unfold persists. eexists. vm_compute. reflexivity.
Defined.

Lemma chat_ignores_padding_witness :
  chat (raw:=bson) (request "   hello  ") = chat (request "hello").
Proof.
  apply (chat_ignores_padding (raw:=bson) "   " "hello" "  " None None None None).
  - reflexivity.
  - reflexivity.
Defined.

Lemma chat_stores_trimmed_text_witness :
  ∃ u a,
    Conversation.messages (conv (request "  hello ")) = [u; a]
    ∧ Py.strip (ChatMessage.content u) = ChatMessage.content u
    ∧ (∀ x t, ChatMessage.content u = String x t → Py.isspace x = false)
    ∧ (∀ t x, ChatMessage.content u = t +:+ String x "" → Py.isspace x = false)
    ∧ chat (raw:=bson)
        (ChatRequest.Build None (ChatMessage.content u) None None None)
      = chat (request "  hello ").
Proof.
  apply (chat_stores_trimmed_text (raw:=bson) (request "  hello ")).
  - vm_compute. discriminate.
  - unfold persists. eexists. vm_compute. reflexivity.
Defined.

Lemma list_conversations_fields_witness :
  ∃ out r,
    run two_records (list_conversations 2) () = (Ok out, ())
    ∧ out !! 0 = Some r
    ∧ dom r = {["id"]} ∪ (dom stored_record ∖ {["_id"]}).
Proof.
  apply (list_conversations_fields two_records 2 ()
           [stored_record; bare_record] () 0 stored_record).
  - reflexivity.
  - reflexivity.
Defined.

Lemma test_database_collections_witness :
  ∃ (r : gmap string Diagnostics.value) (l : list Diagnostics.text),
    Diagnostics.test_database (Some Diagnostics.working) Diagnostics.environment
    = Diagnostics.Value r
    ∧ r !! "collections" = Some (Diagnostics.VList l)
    ∧ l = Diagnostics.lit <$> ["c01"; "c02"; "c03"; "c04"; "c05"; "c06";
                               "c07"; "c08"; "c09"; "c10"].
Proof.
  destruct (DiagnosticsFacts.test_database_collections
              (Some Diagnostics.working) Diagnostics.environment)
    as (r & l & Hr & Hl & _ & Hnames & _).
  exists r, l. split; [exact Hr |]. split; [exact Hl |].
  rewrite (Hnames Diagnostics.working
             (Diagnostics.lit <$> ["c01"; "c02"; "c03"; "c04"; "c05"; "c06";
                                   "c07"; "c08"; "c09"; "c10"; "c11"; "c12"])
             eq_refl).
  - reflexivity.
  - intros e. discriminate.
  - reflexivity.
Defined.

Lemma test_database_connection_status_witness :
  ∃ r : gmap string Diagnostics.value,
    Diagnostics.test_database (Some Diagnostics.failing) ∅
    = Diagnostics.Value r
    ∧ r !! "connection_status"
      = Some (Diagnostics.VStr (Diagnostics.lit "Connected")).
Proof.
  destruct (DiagnosticsFacts.test_database_connection_status
              (Some Diagnostics.failing) ∅) as (r & Hr & Hc & _).
  exists r. split; [exact Hr |]. apply Hc.
  exists Diagnostics.failing. split; [reflexivity |].
  intros e. discriminate.
Defined.

Lemma test_database_status_witness :
  ∃ (r : gmap string Diagnostics.value) (t : Diagnostics.text),
    Diagnostics.test_database (Some Diagnostics.failing) ∅
    = Diagnostics.Value r
    ∧ r !! "database" = Some (Diagnostics.VStr t)
    ∧ t = Diagnostics.warning_sign
          ++ Diagnostics.lit "  Connected but Error: "
          ++ take 50
               (Diagnostics.lit
                  "localhost:27017: [Errno 111] Connection refused, Timeout: 30s").
Proof.
  destruct (DiagnosticsFacts.test_database_status
              (Some Diagnostics.failing) ∅)
    as (r & t & Hr & Ht & _ & _ & _ & Hexc & _).
  exists r, t. split; [exact Hr |]. split; [exact Ht |].
  apply (Hexc Diagnostics.failing _ eq_refl).
  - intros e. discriminate.
  - reflexivity.
Defined.

Lemma list_conversations_does_not_truncate_witness :
  ∃ out : list (document bson),
    run two_records (list_conversations 1) () = (Ok out, ())
    ∧ length out = 2.
Proof.
  apply (list_conversations_does_not_truncate two_records 1 ()
           [stored_record; bare_record] ()).
  reflexivity.
Defined.
